(** * BuggetBee: the transaction store, aggregator, report generators,
      intent router and tone formatter of [app.py]

    A shallow embedding of the helper functions of [app.py] (lines 21-110)
    and the properties the specification states about them.

    Modelling conventions.
    - A pandas [DataFrame] of transactions is the list of its rows, in row
      order.  A cell that pandas holds as [NaN]/[NaT] is [None].
    - A [Timestamp] is the number of nanoseconds since 1970-01-01, as in
      [datetime64[ns]]; it is an unbounded integer here.
    - Amounts are rationals and arithmetic on them is exact.
    - A pandas [Series] indexed by category is an association list in index
      order.
    - Python exceptions are the [Raise] results of a small error monad.
    - Library functions that only render text (number and date formatting,
      [textwrap.fill]) and the element parsers behind [pd.to_datetime] and
      [pd.to_numeric] are parameters, bundled in records. *)

From Stdlib Require Import ZArith QArith Qabs Qround String Ascii List Lia Permutation Sorted.
From stdpp Require Import gmap strings pretty.
Import ListNotations.

Open Scope string_scope.
Open Scope Z_scope.

(** ** Exceptions and results *)

Inductive exn : Type :=
  | ValueError (msg : string)
  | DateParseError
  | ZeroDivisionError
  | KeyError (key : string)
  | IndexError.

Inductive result (A : Type) : Type :=
  | Ok (a : A)
  | Raise (e : exn).

Arguments Ok {A} a.
Arguments Raise {A} e.

#[global] Instance result_ret : MRet result := fun A a => Ok a.

#[global] Instance result_bind : MBind result := fun A B k r =>
  match r with
  | Ok a => k a
  | Raise e => Raise e
  end.

Definition returns {A : Type} (r : result A) : Prop := exists a, r = Ok a.

(** ** Text *)

Definition nl : string := String (ascii_of_nat 10) EmptyString.

(** ["\n".join(lines)] *)
Definition join_lines (lines : list string) : string := String.concat nl lines.

(** [needle in haystack] for Python strings. *)
Fixpoint contains (needle haystack : string) : bool :=
  if String.prefix needle haystack then true
  else match haystack with
       | EmptyString => false
       | String _ rest => contains needle rest
       end.

Definition lower_ascii (c : ascii) : ascii :=
  let n := nat_of_ascii c in
  if (Nat.leb 65 n && Nat.leb n 90)%bool then ascii_of_nat (n + 32)%nat else c.

(** [str.lower()], on the bytes of the message: the letters A-Z are
    lowered, every other byte is kept. *)
Fixpoint lower (s : string) : string :=
  match s with
  | EmptyString => EmptyString
  | String c rest => String (lower_ascii c) (lower rest)
  end.

(** ** Time *)

Definition Timestamp : Type := Z.

Definition day_ns : Z := 86400 * 1000000000.

(** [pd.Timedelta(days=n)] *)
Definition Timedelta (days : Z) : Z := days * day_ns.

(** The [.days] attribute of a time difference. *)
Definition delta_days (delta : Z) : Z := delta / day_ns.

(** Days from 1970-01-01 to the civil date y-m-d (proleptic Gregorian). *)
Definition days_from_civil (y m d : Z) : Z :=
  let y' := if m <=? 2 then y - 1 else y in
  let era := y' / 400 in
  let yoe := y' - era * 400 in
  let mp := if 2 <? m then m - 3 else m + 9 in
  let doy := (153 * mp + 2) / 5 + d - 1 in
  let doe := yoe * 365 + yoe / 4 - yoe / 100 + doy in
  era * 146097 + doe - 719468.

(** The timestamp [pd.to_datetime] gives for the text "y-m-d". *)
Definition ymd (y m d : Z) : Timestamp := days_from_civil y m d * day_ns.

(** ** Transactions *)

Definition cell : Type := option string.

Record Transaction : Type := {
  date : Timestamp;
  category : cell;
  amount : Q;
  description : cell
}.

Definition DataFrame : Type := list Transaction.

(** [df.empty] *)
Definition df_empty (df : DataFrame) : bool :=
  match df with
  | [] => true
  | _ :: _ => false
  end.

Definition tx (d : Timestamp) (c : string) (a : Q) (descr : string) : Transaction :=
  {| date := d; category := Some c; amount := a; description := Some descr |}.

Definition load_sample_transactions : DataFrame :=
  [ tx (ymd 2025 8 1) "Food" 250 "Lunch";
    tx (ymd 2025 8 2) "Transport" 120 "Metro";
    tx (ymd 2025 8 3) "Groceries" 1500 "Weekly groceries";
    tx (ymd 2025 8 5) "Entertainment" 600 "Movie + snacks";
    tx (ymd 2025 8 7) "Subscriptions" 299 "Music";
    tx (ymd 2025 8 10) "Bills" 2200 "Electricity";
    tx (ymd 2025 8 15) "Savings" (-5000) "Monthly saving transfer";
    tx (ymd 2025 8 20) "Investment" (-2000) "SIP" ].

(** ** Transaction store: CSV ingest *)

(** The frame [pd.read_csv] returns, before any coercion: the header and
    the rows of text cells.  An empty field is [None]; a row shorter than
    the header is padded with [None]. *)
Record RawTable : Type := {
  columns : list string;
  rows : list (list cell)
}.

Fixpoint column_index (name : string) (cols : list string) : option nat :=
  match cols with
  | [] => None
  | c :: cs => if String.eqb c name then Some 0%nat else S <$> column_index name cs
  end.

(** [row[name]] *)
Definition field (cols : list string) (name : string) (row : list cell) : cell :=
  match column_index name cols with
  | Some i => match row !! i with
              | Some c => c
              | None => None
              end
  | None => None
  end.

Definition required : list string := ["date"; "category"; "amount"].

(** [names.issubset(cols)] *)
Definition issubset (names cols : list string) : bool :=
  forallb (fun n => existsb (String.eqb n) cols) names.

(** The text of the [ValueError] of line 40 (the rendering of the set
    [required] inside it is left out). *)
Definition schema_message : string := "CSV must contain at least columns".

(** A row after the two coercions of lines 41-42. *)
Record Coerced : Type := {
  c_date : option Timestamp;
  c_category : cell;
  c_amount : option Q;
  c_description : cell
}.

(** [df.dropna(subset=['amount','date'])] *)
Definition dropna (df : list Coerced) : DataFrame :=
  omap (fun r =>
          match c_amount r, c_date r with
          | Some a, Some d =>
              Some {| date := d; category := c_category r;
                      amount := a; description := c_description r |}
          | _, _ => None
          end) df.

Section Parse.

(** The element parsers behind [pd.to_datetime] and [pd.to_numeric]:
    the value of a text, or [None] when the text cannot be parsed. *)
Variable parse_datetime : string -> option Timestamp.
Variable parse_numeric : string -> option Q.

(** One element of [pd.to_datetime(col)], whose default is
    [errors='raise']: a missing value becomes [NaT], a text that does
    not parse raises. *)
Definition to_datetime (c : cell) : result (option Timestamp) :=
  match c with
  | None => Ok None
  | Some s => match parse_datetime s with
              | Some t => Ok (Some t)
              | None => Raise DateParseError
              end
  end.

(** One element of [pd.to_numeric(col, errors='coerce')]: a text that
    does not parse becomes [NaN]. *)
Definition to_numeric (c : cell) : option Q :=
  match c with
  | None => None
  | Some s => parse_numeric s
  end.

Definition coerce_row (cols : list string) (row : list cell) : result Coerced :=
  d ← to_datetime (field cols "date" row);
  mret {| c_date := d;
          c_category := field cols "category" row;
          c_amount := to_numeric (field cols "amount" row);
          c_description := field cols "description" row |}.

Definition parse_transactions (df : RawTable) : result DataFrame :=
  if negb (issubset required (columns df)) then Raise (ValueError schema_message)
  else
    coerced ← mapM (coerce_row (columns df)) (rows df);
    mret (dropna coerced).

(** The output row [t] is the input row [row] with its date and amount
    parsed and its other cells unchanged. *)
Definition cleaned_from (cols : list string) (row : list cell) (t : Transaction) : Prop :=
  to_datetime (field cols "date" row) = Ok (Some (date t)) /\
  to_numeric (field cols "amount" row) = Some (amount t) /\
  category t = field cols "category" row /\
  description t = field cols "description" row.

Definition amount_parses (cols : list string) (row : list cell) : bool :=
  match to_numeric (field cols "amount" row) with
  | Some _ => true
  | None => false
  end.

(** The row has a date that parses and an amount that parses. *)
Definition survives (cols : list string) (row : list cell) : bool :=
  match field cols "date" row with
  | Some s => match parse_datetime s with
              | Some _ => amount_parses cols row
              | None => false
              end
  | None => false
  end.

(** The date cell of the row is a text that [pd.to_datetime] rejects. *)
Definition date_unparsable (cols : list string) (row : list cell) : Prop :=
  exists s, field cols "date" row = Some s /\ parse_datetime s = None.

Definition date_parses (cols : list string) (row : list cell) : Prop :=
  exists s t, field cols "date" row = Some s /\ parse_datetime s = Some t.

End Parse.

(** *** Two concrete element parsers

    An ISO [YYYY-MM-DD] date parser and a plain decimal parser: instances
    of the element parsers, used to run [parse_transactions] on concrete
    tables. *)

Definition digit_of (c : ascii) : option Z :=
  let n := Z.of_nat (nat_of_ascii c) in
  if (48 <=? n) && (n <=? 57) then Some (n - 48) else None.

Fixpoint digits_value (acc : Z) (s : string) : option Z :=
  match s with
  | EmptyString => Some acc
  | String c rest => match digit_of c with
                     | Some d => digits_value (10 * acc + d) rest
                     | None => None
                     end
  end.

Definition number_of (s : string) : option Z :=
  match s with
  | EmptyString => None
  | _ => digits_value 0 s
  end.

Definition leap_year (y : Z) : bool :=
  ((y mod 4 =? 0) && negb (y mod 100 =? 0)) || (y mod 400 =? 0).

Definition days_in_month (y m : Z) : Z :=
  if m =? 2 then (if leap_year y then 29 else 28)
  else if (m =? 4) || (m =? 6) || (m =? 9) || (m =? 11) then 30 else 31.

Definition iso_datetime (s : string) : option Timestamp :=
  match String.get 4 s, String.get 7 s with
  | Some "-"%char, Some "-"%char =>
      if (String.length s =? 10)%nat then
        match number_of (substring 0 4 s), number_of (substring 5 2 s),
              number_of (substring 8 2 s) with
        | Some y, Some m, Some d =>
            if (1 <=? m) && (m <=? 12) && (1 <=? d) && (d <=? days_in_month y m)
            then Some (ymd y m d) else None
        | _, _, _ => None
        end
      else None
  | _, _ => None
  end.

Definition unsigned_decimal (s : string) : option Q :=
  match String.index 0 "." s with
  | None => z ← number_of s; Some (inject_Z z)
  | Some i =>
      let whole := substring 0 i s in
      let frac := substring (S i) (String.length s - S i) s in
      w ← number_of whole;
      f ← number_of frac;
      let scale := 10 ^ Z.of_nat (String.length frac) in
      Some (Qmake (w * scale + f) (Z.to_pos scale))
  end.

Definition plain_decimal (s : string) : option Q :=
  match s with
  | String "-"%char rest => Qopp <$> unsigned_decimal rest
  | _ => unsigned_decimal s
  end.

(** ** Aggregator *)

Fixpoint Qsum (l : list Q) : Q :=
  match l with
  | [] => 0%Q
  | x :: l' => (x + Qsum l')%Q
  end.

(** [df['amount'].sum()] *)
Definition amount_sum (df : DataFrame) : Q := Qsum (map amount df).

(** [x < y] on amounts *)
Definition Qltb (x y : Q) : bool := negb (Qle_bool y x).

(** [df['date'].max()]; [NaT] on a frame without rows. *)
Definition date_max (df : DataFrame) : option Timestamp :=
  match df with
  | [] => None
  | t :: rest => Some (fold_left Z.max (map date rest) (date t))
  end.

(** [df['date'].min()]; [NaT] on a frame without rows. *)
Definition date_min (df : DataFrame) : option Timestamp :=
  match df with
  | [] => None
  | t :: rest => Some (fold_left Z.min (map date rest) (date t))
  end.

(** The rows [tx[tx['date'] >= tx['date'].max() - pd.Timedelta(days=30)]]
    of line 48.  A comparison with [NaT] is false on every row. *)
Definition last_30_days (transactions : DataFrame) : DataFrame :=
  match date_max transactions with
  | Some latest => List.filter (fun t => latest - Timedelta 30 <=? date t) transactions
  | None => []
  end.

(** Lines 48-49 of [summarize_budget]: the reporting window. *)
Definition recent_window (transactions : DataFrame) : DataFrame :=
  let recent := last_30_days transactions in
  if df_empty recent then transactions else recent.

(** [(recent['date'].max() - recent['date'].min()).days]; [None] when the
    dates are [NaT]. *)
Definition span_days (recent : DataFrame) : option Z :=
  match date_max recent, date_min recent with
  | Some hi, Some lo => Some (delta_days (hi - lo))
  | _, _ => None
  end.

(** [max(1, d)]; with [d] not a number the comparison fails and [max]
    keeps its first argument. *)
Definition at_least_one (d : option Z) : Z :=
  match d with
  | Some d => Z.max 1 d
  | None => 1
  end.

(** [x / d] with [d] an integer.  Read as Python division: a zero divisor
    raises (numpy scalars would give [inf] with a warning instead). *)
Definition truediv (x : Q) (d : Z) : result Q :=
  if d =? 0 then Raise ZeroDivisionError else Ok (x / inject_Z d)%Q.

(** A [Series] of amounts indexed by category: the (label, value) pairs
    in index order. *)
Definition Series : Type := list (string * Q).

(** Adds [v] to the group [k] of a series kept in ascending label order. *)
Fixpoint series_add (k : string) (v : Q) (s : Series) : Series :=
  match s with
  | [] => [(k, v)]
  | (k', v') :: s' =>
      match String.compare k k' with
      | Eq => (k', (v' + v)%Q) :: s'
      | Lt => (k, v) :: s
      | Gt => (k', v') :: series_add k v s'
      end
  end.

(** One row of the grouping: [groupby] leaves out a row whose key is
    missing (its default [dropna=True]). *)
Definition group_step (acc : Series) (t : Transaction) : Series :=
  match category t with
  | Some k => series_add k (amount t) acc
  | None => acc
  end.

(** [df.groupby('category')['amount'].sum()]: one entry per category, in
    ascending label order. *)
Definition groupby_category_sum (df : DataFrame) : Series :=
  fold_left group_step df [].

(** [s.abs()] *)
Definition series_abs (s : Series) : Series :=
  map (fun kv => (fst kv, Qabs (snd kv))) s.

Definition series_values (s : Series) : list Q := map snd s.

Fixpoint insert_desc (x : string * Q) (s : Series) : Series :=
  match s with
  | [] => [x]
  | y :: s' => if Qle_bool (snd y) (snd x) then x :: s else y :: insert_desc x s'
  end.

(** [s.sort_values(ascending=False)].  Entries of equal value keep their
    index order here; pandas promises no order among them. *)
Definition sort_values_desc (s : Series) : Series := fold_right insert_desc [] s.

(** [k in s.index] *)
Definition series_contains (k : string) (s : Series) : bool :=
  existsb (fun kv => String.eqb (fst kv) k) s.

(** [s[k]] *)
Definition series_getitem (k : string) (s : Series) : result Q :=
  match find (fun kv => String.eqb (fst kv) k) s with
  | Some kv => Ok (snd kv)
  | None => Raise (KeyError k)
  end.

(** [s.iloc[i]] for [i >= 0] *)
Definition iloc {A : Type} (l : list A) (i : nat) : result A :=
  match l !! i with
  | Some a => Ok a
  | None => Raise IndexError
  end.

(** [enumerate(l, start)] *)
Definition enumerate {A : Type} (start : nat) (l : list A) : list (nat * A) :=
  zip (seq start (length l)) l.

(** [x / total * 100] on a series value: a zero divisor gives a value
    that is not a number ([None]) and no exception. *)
Definition percent_of (total x : Q) : option Q :=
  if Qeq_bool total 0 then None else Some (x / total * 100)%Q.

(** Rounding to the nearest integer, ties to the even one. *)
Definition round_half_even (q : Q) : Z :=
  let f := Qfloor q in
  let r := (q - inject_Z f)%Q in
  if Qltb r (1 # 2) then f
  else if Qltb (1 # 2) r then f + 1
  else if Z.even f then f else f + 1.

(** [.round(1)] *)
Definition round1 (q : Q) : Q := Qmake (round_half_even (q * 10)) 10.

(** ** Profiles *)

Inductive pyval : Type :=
  | PyStr (s : string)
  | PyInt (n : Z).

(** [v == s] for a text [s] *)
Definition eq_str (v : option pyval) (s : string) : bool :=
  match v with
  | Some (PyStr s') => String.eqb s' s
  | _ => false
  end.

(** [c == s] for a cell *)
Definition eq_cell (c : cell) (s : string) : bool :=
  match c with
  | Some s' => String.eqb s' s
  | None => false
  end.

(** ** Report generators, intent router, tone formatter *)

(** Text rendering done by the Python runtime and [textwrap]. *)
Record Rendering : Type := {
  fmt_2f : Q -> string;                   (* f"{x:,.2f}" *)
  fmt_0f : Q -> string;                   (* f"{x:,.0f}" *)
  fmt_pct : option Q -> string;           (* f"{x}" of a rounded percentage *)
  fmt_int : nat -> string;                (* f"{i}" *)
  fmt_date : option Timestamp -> string;  (* f"{ts.date()}" *)
  textwrap_fill : string -> Z -> string   (* textwrap.fill(text, width) *)
}.

Definition rupee : string := "â‚¹".
Definition arrow : string := "â†’".
Definition em_dash : string := "â€”".

(** The locals of [summarize_budget] that its text reports. *)
Record BudgetFigures : Type := {
  period_start : option Timestamp;
  period_end : option Timestamp;
  total_spent : Q;
  total_saved : Q;
  top_expenses : Series;
  avg_daily : Q;
  suggested_monthly : Q
}.

(** Lines 47-52, 59, 61 and 63 of [summarize_budget]. *)
Definition budget_figures (transactions : DataFrame) : result BudgetFigures :=
  let recent := recent_window transactions in
  let spent := amount_sum (List.filter (fun t => Qltb 0 (amount t)) recent) in
  let saved := (- amount_sum (List.filter (fun t => Qltb (amount t) 0) recent))%Q in
  let by_cat := sort_values_desc (groupby_category_sum recent) in
  avg ← truediv spent (at_least_one (span_days recent));
  monthly ← truediv (spent * 30)%Q (at_least_one (span_days recent));
  mret {| period_start := date_min recent;
          period_end := date_max recent;
          total_spent := spent;
          total_saved := saved;
          top_expenses := take 5 (List.filter (fun kv => Qltb 0 (snd kv)) by_cat);
          avg_daily := avg;
          suggested_monthly := (monthly * (9 # 10))%Q |}.

(** [generate_spending_insights], line 69. *)
Definition rank_categories (transactions : DataFrame) : Series :=
  sort_values_desc (series_abs (groupby_category_sum transactions)).

(** [k in by_cat.index and by_cat[k] > limit] *)
Definition exceeds (by_cat : Series) (k : string) (limit : Q) : result bool :=
  if series_contains k by_cat
  then v ← series_getitem k by_cat; mret (Qltb limit v)
  else mret false.

Definition investment_tips : string :=
  join_lines [ "General investment advice:";
               "- Emergency fund";
               "- Diversified equity/index funds";
               "- Short-term: liquid funds or FDs" ].

Definition help_message : string :=
  "I can assist with budget, spending insights, tax basics, or investment tips.".

Definition tip_student : string := "- Build emergency buffer (â‚¹2kâ€“â‚¹10k).".
Definition tip_other : string := "- Automate savings and tax-saving investments.".

Definition greeting_simple : string := "Hey! Here's a simple version:" +:+ nl +:+ nl.
Definition greeting_detailed : string := "Hello â€” advisory:" +:+ nl +:+ nl.

Section Reports.

Variable R : Rendering.
Implicit Types (profile : gmap string pyval) (transactions : DataFrame).

(** Lines 53-60, 62 and 64-65 of [summarize_budget]. *)
Definition render_budget (b : BudgetFigures) : string :=
  join_lines
    ([ "**Period:** " +:+ fmt_date R (period_start b) +:+ " " +:+ arrow +:+ " "
         +:+ fmt_date R (period_end b);
       "**Total Spending:** " +:+ rupee +:+ fmt_2f R (total_spent b);
       "**Total Savings/Investments:** " +:+ rupee +:+ fmt_2f R (total_saved b);
       "**Top Expense Categories:**" ]
     ++ map (fun kv => "- " +:+ fst kv +:+ ": " +:+ rupee +:+ fmt_2f R (snd kv))
            (top_expenses b)
     ++ [ "**Avg Daily Spend:** " +:+ rupee +:+ fmt_2f R (avg_daily b);
          "**Suggested Monthly Budget:** " +:+ rupee +:+ fmt_0f R (suggested_monthly b)
            +:+ " (~10% reduction)" ]).

Definition summarize_budget transactions : result string :=
  if df_empty transactions then Ok "No transactions to summarize."
  else
    b ← budget_figures transactions;
    mret (render_budget b).

Definition generate_spending_insights transactions profile : result string :=
  if df_empty transactions then Ok "No transactions to analyze."
  else
    let by_cat := rank_categories transactions in
    let top := take 3 by_cat in
    let total := Qsum (map (fun t => Qabs (amount t)) transactions) in
    let top_pct := map (fun kv => round1 <$> percent_of total (snd kv)) top in
    ranked ← mapM (fun ix =>
                     p ← iloc top_pct (fst ix - 1);
                     mret (fmt_int R (fst ix) +:+ ". " +:+ fst (snd ix) +:+ " "
                             +:+ em_dash +:+ " " +:+ rupee +:+ fmt_0f R (snd (snd ix))
                             +:+ " (~" +:+ fmt_pct R p +:+ "%)"))
                  (enumerate 1 top);
    subscriptions ← exceeds by_cat "Subscriptions" 500;
    food ← exceeds by_cat "Food" 2000;
    transport ← exceeds by_cat "Transport" 1000;
    mret (join_lines
            ([ "**Top Spending Categories:**" ] ++ ranked
             ++ (if subscriptions : bool
                 then [ "- Consider reviewing unused subscriptions." ] else [])
             ++ (if food : bool then [ "- Set weekly limits for dining out." ] else [])
             ++ (if transport : bool
                 then [ "- Explore travel cards or carpooling." ] else [])
             ++ [ if eq_str (profile !! "user_type") "Student"
                  then tip_student else tip_other ])).

Definition generate_tax_guidance profile : string :=
  join_lines
    ([ "**Tax Guidance (general educational):**" ]
     ++ (if eq_str (profile !! "user_type") "Student"
         then [ "- Check filing threshold for part-time income.";
                "- Keep educational expense receipts." ]
         else [ "- Track salary components & use standard deductions.";
                "- Save proofs for investments (PPF, ELSS, insurance)." ])
     ++ [ "- Consult a tax professional for accuracy." ]).

Definition format_response_for_tone (text : string) profile (complexity : string) : string :=
  let user_type := Some (default (PyStr "Student") (profile !! "user_type")) in
  let complexity :=
    if String.eqb complexity "Auto"
    then (if eq_str user_type "Student" then "Simple" else "Detailed")
    else complexity in
  let greeting :=
    if String.eqb complexity "Simple" then greeting_simple else greeting_detailed in
  greeting +:+ textwrap_fill R text 80.

Definition local_ai_response (msg : string) profile transactions (complexity : string)
  : result string :=
  let m := lower msg in
  if contains "budget" m then summarize_budget transactions
  else if existsb (fun k => contains k m) ["spend"; "insights"; "save"]
  then generate_spending_insights transactions profile
  else if contains "tax" m then Ok (generate_tax_guidance profile)
  else if existsb (fun k => contains k m) ["invest"; "sip"] then Ok investment_tips
  else Ok help_message.

End Reports.

(** ** The specification's wording of the router and of the budget formulas *)

(** The router as the specification words it: an ordered list of rules,
    each a set of keywords and the generator it selects; the first rule
    with a keyword contained in the lower-cased message wins, and the help
    message is the default. *)
Inductive Intent : Type :=
  | BudgetSummary
  | SpendingInsights
  | TaxGuidance
  | InvestmentTips
  | Help.

Definition routing_rules : list (list string * Intent) :=
  [ (["budget"], BudgetSummary);
    (["spend"; "insights"; "save"], SpendingInsights);
    (["tax"], TaxGuidance);
    (["invest"; "sip"], InvestmentTips) ].

Fixpoint first_match (rules : list (list string * Intent)) (m : string) : Intent :=
  match rules with
  | [] => Help
  | (keywords, intent) :: rest =>
      if existsb (fun k => contains k m) keywords then intent else first_match rest m
  end.

Definition route (msg : string) : Intent := first_match routing_rules (lower msg).

Definition respond (R : Rendering) (i : Intent)
    (profile : gmap string pyval) (transactions : DataFrame) : result string :=
  match i with
  | BudgetSummary => summarize_budget R transactions
  | SpendingInsights => generate_spending_insights R transactions profile
  | TaxGuidance => Ok (generate_tax_guidance profile)
  | InvestmentTips => Ok investment_tips
  | Help => Ok help_message
  end.

(** "[x] divided by [d]" as the specification writes it, with no guard:
    it has a value for a non-zero divisor only. *)
Definition spec_div (x : Q) (d : Z) : option Q :=
  if d =? 0 then None else Some (x / inject_Z d)%Q.

(** total spend / max(1, window_days) *)
Definition spec_avg_daily (total : Q) (window_days : Z) : option Q :=
  spec_div total (Z.max 1 window_days).

(** total spend x 30 / window_days x 0.9 *)
Definition spec_suggested_monthly (total : Q) (window_days : Z) : option Q :=
  (fun q => q * (9 # 10))%Q <$> spec_div (total * 30)%Q window_days.

(** Total spend of a window: the sum of its positive amounts. *)
Definition spend_of (window : DataFrame) : Q :=
  amount_sum (List.filter (fun t => Qltb 0 (amount t)) window).

(** The figures of the Budget Summary agree with the two formulas as the
    specification writes them. *)
Definition budget_formulas_as_stated (transactions : DataFrame) : Prop :=
  exists b d a s,
    budget_figures transactions = Ok b /\
    span_days (recent_window transactions) = Some d /\
    spec_avg_daily (total_spent b) d = Some a /\ (avg_daily b == a)%Q /\
    spec_suggested_monthly (total_spent b) d = Some s /\ (suggested_monthly b == s)%Q.

(** The transaction has a category label. *)
Definition has_category (t : Transaction) : bool :=
  match category t with
  | Some _ => true
  | None => false
  end.

(** The signed sum of the amounts of the rows labelled [k]. *)
Definition category_total (k : string) (df : DataFrame) : Q :=
  amount_sum (List.filter (fun t => eq_cell (category t) k) df).

(** ** Auxiliary notions on series *)

(** Index labels in strictly ascending order. *)
Definition label_lt (a b : string * Q) : Prop := String.compare (fst a) (fst b) = Lt.

Definition ascending (s : Series) : Prop := StronglySorted label_lt s.

(** The value stored under [k], if any. *)
Definition series_find (k : string) (s : Series) : option Q :=
  snd <$> find (fun kv => String.eqb (fst kv) k) s.

Definition series_value (k : string) (s : Series) : Q := default 0%Q (series_find k s).

(** Values in descending order. *)
Definition descending (s : Series) : Prop :=
  StronglySorted (fun a b => (snd b <= snd a)%Q) s.

(** The per-category sums add up to the sum of all amounts. *)
Definition group_sums_total (df : DataFrame) : Prop :=
  (Qsum (series_values (groupby_category_sum df)) == amount_sum df)%Q.

(** A CSV whose second row has an empty [category] field, and the frame
    [parse_transactions] makes of it. *)
Definition unlabelled_table : RawTable :=
  {| columns := ["date"; "category"; "amount"];
     rows := [ [Some "2025-08-01"; Some "Food"; Some "250"];
               [Some "2025-08-02"; None; Some "100"] ] |}.

Definition unlabelled_frame : DataFrame :=
  [ {| date := ymd 2025 8 1; category := Some "Food"; amount := 250;
       description := None |};
    {| date := ymd 2025 8 2; category := None; amount := 100;
       description := None |} ].

(** Three CSV tables: one without the [category] column, one whose second
    and third rows have an amount that is not a number, one whose second
    row has a date that is not a date. *)
Definition no_category_table : RawTable :=
  {| columns := ["date"; "amount"; "description"];
     rows := [ [Some "2025-08-01"; Some "250"; Some "Lunch"] ] |}.

Definition bad_amount_table : RawTable :=
  {| columns := ["date"; "category"; "amount"; "description"];
     rows := [ [Some "2025-08-01"; Some "Food"; Some "250"; Some "Lunch"];
               [Some "2025-08-02"; Some "Transport"; Some "12o"; Some "Metro"];
               [Some "2025-08-03"; Some "Groceries"; None; None];
               [Some "2025-08-05"; Some "Savings"; Some "-5000"; None] ] |}.

Definition bad_date_table : RawTable :=
  {| columns := ["date"; "category"; "amount"];
     rows := [ [Some "2025-08-01"; Some "Food"; Some "250"];
               [Some "not a date"; Some "Transport"; Some "120"] ] |}.

(** A transaction set whose rows all fall on one day. *)
Definition one_day_frame : DataFrame := [ tx (ymd 2025 8 1) "Food" 100 "Lunch" ].

(** Two profiles with the [user_type] key, and one without it. *)
Definition student : gmap string pyval := {[ "user_type" := PyStr "Student" ]}.
Definition professional : gmap string pyval := {[ "user_type" := PyStr "Professional" ]}.
Definition anonymous : gmap string pyval := {[ "name" := PyStr "Alex" ]}.

(** ** A rendering for running the reports

    Numbers and dates as Python prints them; [textwrap.fill] is replaced
    by the identity, so the text is left unwrapped. *)

Definition pad (width : nat) (n : Z) : string :=
  let s := pretty n in
  String.concat EmptyString (replicate (width - String.length s) "0") +:+ s.

(** The decimal digits of [n >= 0] in groups of three. *)
Fixpoint grouped (fuel : nat) (n : Z) : string :=
  match fuel with
  | O => pretty n
  | S fuel' =>
      if n <? 1000 then pretty n
      else grouped fuel' (n / 1000) +:+ "," +:+ pad 3 (n mod 1000)
  end.

Definition sign_of (q : Q) : string := if Qltb q 0 then "-" else EmptyString.

(** [f"{q:,.0f}"] *)
Definition plain_0f (q : Q) : string :=
  let n := Z.abs (round_half_even q) in
  sign_of q +:+ grouped (Z.to_nat (Z.log2 n)) n.

(** [f"{q:,.2f}"] *)
Definition plain_2f (q : Q) : string :=
  let n := Z.abs (round_half_even (q * 100)) in
  sign_of q +:+ grouped (Z.to_nat (Z.log2 n)) (n / 100) +:+ "." +:+ pad 2 (n mod 100).

(** [f"{x}"] of a percentage rounded to one decimal. *)
Definition plain_pct (x : option Q) : string :=
  match x with
  | None => "nan"
  | Some q =>
      let n := Z.abs (round_half_even (q * 10)) in
      sign_of q +:+ pretty (n / 10) +:+ "." +:+ pretty (n mod 10)
  end.

(** The civil date of a day number (the inverse of [days_from_civil]). *)
Definition civil_from_days (z : Z) : Z * Z * Z :=
  let z := z + 719468 in
  let era := z / 146097 in
  let doe := z - era * 146097 in
  let yoe := (doe - doe / 1460 + doe / 36524 - doe / 146096) / 365 in
  let doy := doe - (365 * yoe + yoe / 4 - yoe / 100) in
  let mp := (5 * doy + 2) / 153 in
  let d := doy - (153 * mp + 2) / 5 + 1 in
  let m := if mp <? 10 then mp + 3 else mp - 9 in
  let y := yoe + era * 400 in
  (if m <=? 2 then y + 1 else y, m, d).

(** [f"{ts.date()}"] *)
Definition plain_date (t : option Timestamp) : string :=
  match t with
  | None => "NaT"
  | Some t =>
      let '(y, m, d) := civil_from_days (t / day_ns) in
      pad 4 y +:+ "-" +:+ pad 2 m +:+ "-" +:+ pad 2 d
  end.

Definition plain_rendering : Rendering :=
  {| fmt_2f := plain_2f;
     fmt_0f := plain_0f;
     fmt_pct := plain_pct;
     fmt_int := fun i => pretty i;
     fmt_date := plain_date;
     textwrap_fill := fun text _ => text |}.

(** The text [h] has [needle] somewhere inside. *)
Definition occurs_in (needle h : string) : Prop :=
  exists before after, h = before +:+ needle +:+ after.

(** * Properties *)

(** ** The error monad *)

Lemma bind_Ok {A B : Type} (r : result A) (k : A -> result B) (b : B) :
  r ≫= k = Ok b <-> exists a, r = Ok a /\ k a = Ok b.
Proof.
  destruct r as [a|e]; simpl; split.
  - intros H. exists a. split; [reflexivity | exact H].
  - intros (a' & Ha & Hk). injection Ha as ->. exact Hk.
  - discriminate.
  - intros (a' & Ha & _). discriminate.
Qed.

Lemma returns_bind {A B : Type} (r : result A) (k : A -> result B) :
  returns r -> (forall a, returns (k a)) -> returns (r ≫= k).
Proof.
  intros [a ->] Hk. simpl. apply Hk.
Qed.

Lemma returns_Ok {A : Type} (a : A) : returns (Ok a).
Proof. exists a. reflexivity. Qed.

Lemma returns_mapM {A B : Type} (f : A -> result B) (l : list A) :
  Forall (fun x => returns (f x)) l -> returns (mapM f l).
Proof.
  induction 1 as [|x l Hx _ IH]; simpl.
  - apply returns_Ok.
  - apply returns_bind; [exact Hx|]. intros b.
    apply returns_bind; [exact IH|]. intros bs. apply returns_Ok.
Qed.

Lemma mapM_Ok_Forall2 {A B : Type} (f : A -> result B) (l : list A) (out : list B) :
  mapM f l = Ok out <-> Forall2 (fun x y => f x = Ok y) l out.
Proof.
  revert out. induction l as [|x l IH]; intros out; simpl.
  - split.
    + intros [= <-]. constructor.
    + intros H. inversion H. reflexivity.
  - split.
    + intros H. apply bind_Ok in H as (b & Hb & H).
      apply bind_Ok in H as (bs & Hbs & H). injection H as <-.
      constructor; [exact Hb | apply IH, Hbs].
    + intros H. inversion H as [|? y ? out' Hy Hrest]; subst.
      rewrite Hy. simpl. apply IH in Hrest. rewrite Hrest. reflexivity.
Qed.

Lemma mapM_Raise {A B : Type} (f : A -> result B) (l : list A) (e : exn) (x : A) :
  x ∈ l -> f x = Raise e -> (forall y e', f y = Raise e' -> e' = e) ->
  mapM f l = Raise e.
Proof.
  intros Hin Hx Honly. induction Hin as [x l|x y l _ IH]; simpl.
  - rewrite Hx. reflexivity.
  - destruct (f y) as [b|e'] eqn:Hy; simpl.
    + rewrite (IH Hx). reflexivity.
    + f_equal. eapply Honly, Hy.
Qed.

(** ** The reporting window *)

Lemma fold_max_ge (l : list Z) (a : Z) : a <= fold_left Z.max l a.
Proof.
  revert a. induction l as [|x l IH]; intros a; simpl; [lia|].
  specialize (IH (Z.max a x)). lia.
Qed.

Lemma fold_max_upper (l : list Z) (a : Z) : Forall (fun x => x <= fold_left Z.max l a) l.
Proof.
  revert a. induction l as [|x l IH]; intros a; simpl; constructor.
  - pose proof (fold_max_ge l (Z.max a x)). lia.
  - apply IH.
Qed.

Lemma fold_max_in (l : list Z) (a : Z) : fold_left Z.max l a ∈ a :: l.
Proof.
  revert a. induction l as [|x l IH]; intros a; simpl.
  - left.
  - specialize (IH (Z.max a x)). apply elem_of_cons in IH as [IH|IH].
    + rewrite IH. destruct (Z.max_spec a x) as [[_ ->]|[_ ->]].
      * right. left.
      * left.
    + right. right. exact IH.
Qed.

Lemma fold_min_le (l : list Z) (a : Z) : fold_left Z.min l a <= a.
Proof.
  revert a. induction l as [|x l IH]; intros a; simpl; [lia|].
  specialize (IH (Z.min a x)). lia.
Qed.

Lemma fold_min_lower (l : list Z) (a : Z) : Forall (fun x => fold_left Z.min l a <= x) l.
Proof.
  revert a. induction l as [|x l IH]; intros a; simpl; constructor.
  - pose proof (fold_min_le l (Z.min a x)). lia.
  - apply IH.
Qed.

(** The latest date of a frame is the date of one of its rows and bounds
    every date of the frame. *)
Lemma date_max_spec (df : DataFrame) (m : Timestamp) :
  date_max df = Some m ->
  (exists t, t ∈ df /\ date t = m) /\ (forall t, t ∈ df -> date t <= m).
Proof.
  destruct df as [|t0 rest]; simpl; [discriminate|].
  intros [= <-]. split.
  - pose proof (fold_max_in (map date rest) (date t0)) as Hin.
    apply elem_of_cons in Hin as [Hin|Hin].
    + exists t0. split; [left | symmetry; exact Hin].
    + apply list_elem_of_fmap in Hin as (t & Ht & Hin).
      exists t. split; [right; exact Hin | symmetry; exact Ht].
  - intros t Hin. apply elem_of_cons in Hin as [->|Hin].
    + apply fold_max_ge.
    + pose proof (fold_max_upper (map date rest) (date t0)) as Hall.
      rewrite Forall_forall in Hall. apply Hall, list_elem_of_fmap.
      exists t. split; [reflexivity | exact Hin].
Qed.

Lemma date_min_spec (df : DataFrame) (m : Timestamp) :
  date_min df = Some m -> forall t, t ∈ df -> m <= date t.
Proof.
  destruct df as [|t0 rest]; simpl; [discriminate|].
  intros [= <-] t Hin. apply elem_of_cons in Hin as [->|Hin].
  - apply fold_min_le.
  - pose proof (fold_min_lower (map date rest) (date t0)) as Hall.
    rewrite Forall_forall in Hall. apply Hall, list_elem_of_fmap.
    exists t. split; [reflexivity | exact Hin].
Qed.

Lemma date_max_is_Some (df : DataFrame) : df <> [] -> exists m, date_max df = Some m.
Proof. destruct df; [congruence | simpl; eauto]. Qed.

Lemma date_min_is_Some (df : DataFrame) : df <> [] -> exists m, date_min df = Some m.
Proof. destruct df; [congruence | simpl; eauto]. Qed.

Lemma day_ns_pos : 0 < day_ns.
Proof. reflexivity. Qed.

(** The date filter of line 48 already keeps the latest row, so the
    fallback of line 49 has nothing to do on a frame with rows. *)
Lemma last_30_days_nonempty (transactions : DataFrame) :
  transactions <> [] -> last_30_days transactions <> [].
Proof.
  intros Hne. unfold last_30_days.
  destruct (date_max_is_Some _ Hne) as [m Hm]. rewrite Hm.
  destruct (date_max_spec _ _ Hm) as [(t & Hin & Ht) _].
  intros Hnil.
  assert (Hkeep : In t (List.filter (fun t => m - Timedelta 30 <=? date t) transactions)).
  { apply filter_In. split; [apply list_elem_of_In, Hin|].
    apply Z.leb_le. unfold Timedelta. pose proof day_ns_pos. lia. }
  rewrite Hnil in Hkeep. destruct Hkeep.
Qed.

Lemma recent_window_subset (transactions : DataFrame) (t : Transaction) :
  t ∈ recent_window transactions -> t ∈ transactions.
Proof.
  unfold recent_window, last_30_days.
  destruct (df_empty _); [tauto|].
  destruct (date_max transactions); [|intros H; inversion H].
  intros H. apply list_elem_of_In in H. apply filter_In in H as [H _].
  apply list_elem_of_In, H.
Qed.

Lemma recent_window_nonempty (transactions : DataFrame) :
  transactions <> [] -> recent_window transactions <> [].
Proof.
  intros Hne. unfold recent_window.
  destruct (last_30_days transactions) eqn:Hrecent; simpl; [exact Hne | discriminate].
Qed.

(** C1. The reporting window of the Budget Summary (the rows dated no
    earlier than 30 days before the latest date, or the whole set when no
    row passes) is empty only when the transaction set itself is empty:
    for every set with at least one row the window has at least one row. *)
Theorem recent_window_empty_iff (transactions : DataFrame) :
  recent_window transactions = [] <-> transactions = [].
Proof.
  split.
  - unfold recent_window. destruct (last_30_days transactions) eqn:Hrecent; simpl.
    + tauto.
    + discriminate.
  - intros ->. reflexivity.
Qed.

(** ** Sums and grouping *)

Lemma Qsum_app (l1 l2 : list Q) : (Qsum (l1 ++ l2) == Qsum l1 + Qsum l2)%Q.
Proof.
  induction l1 as [|x l1 IH]; simpl.
  - ring.
  - rewrite IH. ring.
Qed.

Lemma Qsum_perm (l1 l2 : list Q) : l1 ≡ₚ l2 -> (Qsum l1 == Qsum l2)%Q.
Proof.
  induction 1 as [|x l1 l2 _ IH|x y l|l1 l2 l3 _ IH1 _ IH2]; simpl.
  - reflexivity.
  - rewrite IH. reflexivity.
  - ring.
  - rewrite IH1. exact IH2.
Qed.

Lemma series_add_sum (k : string) (v : Q) (s : Series) :
  (Qsum (series_values (series_add k v s)) == v + Qsum (series_values s))%Q.
Proof.
  unfold series_values. induction s as [|[k' v'] s IH]; simpl.
  - reflexivity.
  - destruct (String.compare k k'); simpl.
    + ring.
    + reflexivity.
    + rewrite IH. ring.
Qed.

Lemma groupby_category_sum_fold (df : DataFrame) :
  groupby_category_sum df = fold_left group_step df [].
Proof. reflexivity. Qed.

Lemma fold_group_step_sum (df : DataFrame) (acc : Series) :
  (Qsum (series_values (fold_left group_step df acc))
   == Qsum (series_values acc) + amount_sum (List.filter has_category df))%Q.
Proof.
  revert acc. induction df as [|t df IH]; intros acc; simpl.
  - unfold amount_sum. simpl. ring.
  - rewrite IH. unfold group_step, has_category.
    destruct (category t) as [k|]; simpl.
    + rewrite series_add_sum. unfold amount_sum. simpl. ring.
    + reflexivity.
Qed.

(** The group sums add up to the sum of the amounts of the rows that
    carry a category label. *)
Lemma groupby_sums_labelled (df : DataFrame) :
  (Qsum (series_values (groupby_category_sum df))
   == amount_sum (List.filter has_category df))%Q.
Proof.
  rewrite groupby_category_sum_fold, fold_group_step_sum. simpl. ring.
Qed.

Lemma filter_all {A : Type} (p : A -> bool) (l : list A) :
  (forall x, x ∈ l -> p x = true) -> List.filter p l = l.
Proof.
  induction l as [|x l IH]; intros Hall; simpl.
  - reflexivity.
  - rewrite (Hall x) by left. f_equal. apply IH.
    intros y Hy. apply Hall. right. exact Hy.
Qed.

(** *** The groups are the categories, each with its signed sum *)

Lemma ascii_compare_refl (a : ascii) : Ascii.compare a a = Eq.
Proof. unfold Ascii.compare. apply N.compare_refl. Qed.

Lemma ascii_compare_lt_trans (a b c : ascii) :
  Ascii.compare a b = Lt -> Ascii.compare b c = Lt -> Ascii.compare a c = Lt.
Proof.
  unfold Ascii.compare. rewrite !N.compare_lt_iff. lia.
Qed.

Lemma string_compare_lt_trans (s1 s2 s3 : string) :
  String.compare s1 s2 = Lt -> String.compare s2 s3 = Lt -> String.compare s1 s3 = Lt.
Proof.
  revert s2 s3. induction s1 as [|a s1 IH]; intros [|b s2] [|c s3]; simpl;
    try discriminate; try reflexivity.
  destruct (Ascii.compare a b) eqn:Hab; try discriminate;
    destruct (Ascii.compare b c) eqn:Hbc; try discriminate; intros H12 H23.
  - apply Ascii.compare_eq_iff in Hab, Hbc. subst.
    rewrite ascii_compare_refl. eapply IH; eassumption.
  - apply Ascii.compare_eq_iff in Hab. subst. rewrite Hbc. reflexivity.
  - apply Ascii.compare_eq_iff in Hbc. subst. rewrite Hab. reflexivity.
  - rewrite (ascii_compare_lt_trans _ _ _ Hab Hbc). reflexivity.
Qed.

Lemma string_compare_refl (s : string) : String.compare s s = Eq.
Proof.
  induction s as [|a s IH]; simpl; [reflexivity|].
  rewrite ascii_compare_refl. exact IH.
Qed.

Lemma string_compare_lt_neq (s1 s2 : string) :
  String.compare s1 s2 = Lt -> String.eqb s1 s2 = false.
Proof.
  intros Hlt. apply String.eqb_neq. intros ->.
  rewrite string_compare_refl in Hlt. discriminate.
Qed.

Lemma series_getitem_find (k : string) (s : Series) :
  series_getitem k s = match series_find k s with
                       | Some v => Ok v
                       | None => Raise (KeyError k)
                       end.
Proof.
  unfold series_getitem, series_find. destruct (find _ s); reflexivity.
Qed.

Lemma series_contains_find (k : string) (s : Series) :
  series_contains k s = true <-> is_Some (series_find k s).
Proof.
  unfold series_contains, series_find. induction s as [|[k' v'] s IH]; simpl.
  - split; [discriminate | intros [? [=]]].
  - destruct (String.eqb k' k); simpl.
    + split; eauto.
    + exact IH.
Qed.

Lemma series_find_below (k : string) (s : Series) :
  Forall (fun kv => String.compare k (fst kv) = Lt) s -> series_find k s = None.
Proof.
  unfold series_find. induction 1 as [|[k' v'] s Hlt _ IH]; simpl.
  - reflexivity.
  - simpl in Hlt. apply string_compare_lt_neq in Hlt.
    rewrite String.eqb_sym, Hlt. exact IH.
Qed.

Lemma series_add_ascending (k : string) (v : Q) (s : Series) :
  ascending s -> ascending (series_add k v s).
Proof.
  unfold ascending. induction 1 as [|[k' v'] s Hs IH Hall]; simpl.
  - repeat constructor.
  - destruct (String.compare k k') eqn:Hcmp.
    + constructor; [exact Hs | exact Hall].
    + constructor; [constructor; assumption|].
      constructor; [exact Hcmp|].
      eapply Forall_impl; [exact Hall|]. intros [k2 v2]. unfold label_lt. simpl.
      intros H. eapply string_compare_lt_trans; eassumption.
    + constructor; [exact IH|].
      assert (Hk : label_lt (k', v') (k, v)).
      { unfold label_lt. simpl. rewrite String.compare_antisym, Hcmp. reflexivity. }
      clear IH Hs. induction Hall as [|[k2 v2] s H2 Htail IHall]; simpl.
      * repeat constructor. exact Hk.
      * destruct (String.compare k k2).
        -- constructor; [exact H2 | exact Htail].
        -- constructor; [exact Hk|]. constructor; [exact H2 | exact Htail].
        -- constructor; [exact H2 | exact IHall].
Qed.

(** What [series_add] stores: the group [k] gains [v], every other group
    keeps its value. *)
Lemma series_find_add (k k' : string) (v : Q) (s : Series) :
  ascending s ->
  series_find k' (series_add k v s) =
    if String.eqb k k'
    then Some (match series_find k s with
               | Some old => (old + v)%Q
               | None => v
               end)
    else series_find k' s.
Proof.
  unfold ascending. induction 1 as [|[k0 v0] s Hs IH Hall].
  - unfold series_find. simpl. destruct (String.eqb k k'); reflexivity.
  - simpl. destruct (String.compare k k0) eqn:Hcmp.
    + apply String.compare_eq_iff in Hcmp. subst k0.
      unfold series_find. simpl. rewrite String.eqb_refl.
      destruct (String.eqb k k'); reflexivity.
    + assert (Hnone : series_find k ((k0, v0) :: s) = None).
      { apply series_find_below. constructor; [exact Hcmp|].
        eapply Forall_impl; [exact Hall|]. intros [k2 v2]. unfold label_lt. simpl.
        intros H. eapply string_compare_lt_trans; eassumption. }
      rewrite Hnone. unfold series_find at 1. simpl.
      destruct (String.eqb k k'); reflexivity.
    + assert (Hne : String.eqb k0 k = false).
      { apply string_compare_lt_neq. rewrite String.compare_antisym, Hcmp. reflexivity. }
      unfold series_find in *. simpl. rewrite Hne.
      destruct (String.eqb k0 k') eqn:H0.
      * apply String.eqb_eq in H0. subst k'.
        rewrite String.eqb_sym, Hne. reflexivity.
      * exact IH.
Qed.

Lemma fold_group_step_ascending (df : DataFrame) (acc : Series) :
  ascending acc -> ascending (fold_left group_step df acc).
Proof.
  revert acc. induction df as [|t df IH]; intros acc Hacc; simpl; [exact Hacc|].
  apply IH. unfold group_step. destruct (category t); [|exact Hacc].
  apply series_add_ascending, Hacc.
Qed.

Lemma groupby_ascending (df : DataFrame) : ascending (groupby_category_sum df).
Proof. apply fold_group_step_ascending. constructor. Qed.

Lemma fold_group_step_value (k : string) (df : DataFrame) (acc : Series) :
  ascending acc ->
  (series_value k (fold_left group_step df acc)
   == series_value k acc + category_total k df)%Q.
Proof.
  revert acc. induction df as [|t df IH]; intros acc Hacc; simpl.
  - unfold category_total, amount_sum. simpl. ring.
  - rewrite IH.
    2:{ unfold group_step. destruct (category t); [|exact Hacc].
        apply series_add_ascending, Hacc. }
    unfold group_step, category_total, amount_sum, eq_cell. simpl.
    destruct (category t) as [k0|]; simpl.
    + unfold series_value. rewrite (series_find_add _ _ _ _ Hacc).
      destruct (String.eqb k0 k) eqn:Hk; simpl.
      * apply String.eqb_eq in Hk. subst k0.
        destruct (series_find k acc); simpl; ring.
      * ring.
    + ring.
Qed.

Lemma fold_group_step_present (k : string) (df : DataFrame) (acc : Series) :
  ascending acc ->
  is_Some (series_find k (fold_left group_step df acc)) <->
  is_Some (series_find k acc) \/ exists t, t ∈ df /\ category t = Some k.
Proof.
  revert acc. induction df as [|t df IH]; intros acc Hacc; simpl.
  - split; [auto|]. intros [H|(t & Hin & _)]; [exact H | inversion Hin].
  - rewrite IH.
    2:{ unfold group_step. destruct (category t); [|exact Hacc].
        apply series_add_ascending, Hacc. }
    unfold group_step. destruct (category t) as [k0|] eqn:Hcat.
    + rewrite (series_find_add _ _ _ _ Hacc).
      destruct (String.eqb k0 k) eqn:Hk.
      * apply String.eqb_eq in Hk. subst k0. split.
        -- intros _. right. exists t. split; [left | exact Hcat].
        -- intros _. left. eauto.
      * apply String.eqb_neq in Hk. split.
        -- intros [H|(t' & Hin & Ht')]; [auto|].
           right. exists t'. split; [right; exact Hin | exact Ht'].
        -- intros [H|(t' & Hin & Ht')]; [auto|].
           apply elem_of_cons in Hin as [->|Hin]; [congruence|].
           right. eauto.
    + split.
      * intros [H|(t' & Hin & Ht')]; [auto|].
        right. exists t'. split; [right; exact Hin | exact Ht'].
      * intros [H|(t' & Hin & Ht')]; [auto|].
        apply elem_of_cons in Hin as [->|Hin]; [congruence|].
        right. eauto.
Qed.

Lemma ascending_find_elem (k : string) (v : Q) (s : Series) :
  ascending s -> (k, v) ∈ s -> series_find k s = Some v.
Proof.
  unfold ascending, series_find. induction 1 as [|[k0 v0] s Hs IH Hall]; intros Hin.
  - inversion Hin.
  - simpl. apply elem_of_cons in Hin as [Heq|Hin].
    + injection Heq as <- <-. rewrite String.eqb_refl. reflexivity.
    + rewrite Forall_forall in Hall. specialize (Hall _ Hin).
      unfold label_lt in Hall. simpl in Hall.
      rewrite (string_compare_lt_neq _ _ Hall). apply IH, Hin.
Qed.

(** Every entry of the grouped series is a category that labels some row,
    with the signed sum of the amounts of the rows it labels. *)
Lemma groupby_entry (k : string) (v : Q) (df : DataFrame) :
  (k, v) ∈ groupby_category_sum df ->
  (exists t, t ∈ df /\ category t = Some k) /\ (v == category_total k df)%Q.
Proof.
  intros Hin.
  pose proof (ascending_find_elem _ _ _ (groupby_ascending df) Hin) as Hfind.
  split.
  - assert (Hsome : is_Some (series_find k (groupby_category_sum df))) by eauto.
    rewrite groupby_category_sum_fold in Hsome.
    apply fold_group_step_present in Hsome; [|constructor].
    destruct Hsome as [[? [=]]|H]. exact H.
  - pose proof (fold_group_step_value k df [] ltac:(constructor)) as Hval.
    rewrite <- groupby_category_sum_fold in Hval.
    unfold series_value in Hval. rewrite Hfind in Hval. simpl in Hval.
    rewrite Hval. ring.
Qed.

(** Every category that labels a row has an entry. *)
Lemma groupby_complete (df : DataFrame) (t : Transaction) (k : string) :
  t ∈ df -> category t = Some k -> series_contains k (groupby_category_sum df) = true.
Proof.
  intros Hin Hcat. apply series_contains_find.
  rewrite groupby_category_sum_fold. apply fold_group_step_present; [constructor|].
  right. eauto.
Qed.




(** ** Ranking *)

Lemma insert_desc_perm (x : string * Q) (s : Series) : insert_desc x s ≡ₚ x :: s.
Proof.
  induction s as [|y s IH]; simpl.
  - reflexivity.
  - destruct (Qle_bool (snd y) (snd x)).
    + reflexivity.
    + rewrite IH. apply Permutation_swap.
Qed.

Lemma sort_values_desc_perm (s : Series) : sort_values_desc s ≡ₚ s.
Proof.
  induction s as [|x s IH]; simpl.
  - reflexivity.
  - rewrite insert_desc_perm, IH. reflexivity.
Qed.

Lemma insert_desc_descending (x : string * Q) (s : Series) :
  descending s -> descending (insert_desc x s).
Proof.
  unfold descending. induction 1 as [|y s Hs IH Hall]; simpl.
  - repeat constructor.
  - destruct (Qle_bool (snd y) (snd x)) eqn:Hle.
    + apply Qle_bool_iff in Hle.
      constructor; [constructor; assumption|].
      constructor; [exact Hle|].
      eapply Forall_impl; [exact Hall|]. simpl. intros z Hz.
      eapply Qle_trans; eassumption.
    + constructor; [exact IH|].
      rewrite insert_desc_perm. constructor; [|exact Hall].
      destruct (Qlt_le_dec (snd y) (snd x)) as [Hlt|Hge]; [|exact Hge].
      apply Qlt_le_weak, Qle_bool_iff in Hlt. congruence.
Qed.

Lemma sort_values_desc_descending (s : Series) : descending (sort_values_desc s).
Proof.
  induction s as [|x s IH]; simpl.
  - constructor.
  - apply insert_desc_descending, IH.
Qed.

Lemma series_abs_elem (k : string) (v : Q) (s : Series) :
  (k, v) ∈ series_abs s -> exists v0, (k, v0) ∈ s /\ v = Qabs v0.
Proof.
  unfold series_abs. intros Hin.
  apply list_elem_of_fmap in Hin as ([k0 v0] & Heq & Hin).
  simpl in Heq. injection Heq as -> ->. eauto.
Qed.


(** ** CSV ingest *)

Lemma existsb_eqb_elem (n : string) (cols : list string) :
  existsb (String.eqb n) cols = true <-> n ∈ cols.
Proof.
  induction cols as [|c cols IH]; simpl.
  - split; [discriminate | intros H; inversion H].
  - rewrite orb_true_iff, IH, String.eqb_eq, elem_of_cons. reflexivity.
Qed.

Lemma issubset_true (names cols : list string) :
  issubset names cols = true <-> names ⊆ cols.
Proof.
  unfold issubset. rewrite forallb_forall. split.
  - intros H n Hn. apply existsb_eqb_elem, H, list_elem_of_In, Hn.
  - intros H n Hn. apply existsb_eqb_elem, H, list_elem_of_In, Hn.
Qed.

Lemma issubset_false (names cols : list string) (n : string) :
  n ∈ names -> n ∉ cols -> issubset names cols = false.
Proof.
  intros Hn Hcols. destruct (issubset names cols) eqn:Hsub; [|reflexivity].
  apply issubset_true in Hsub. destruct Hcols. apply Hsub, Hn.
Qed.

Section ParseProperties.

Variable parse_datetime : string -> option Timestamp.
Variable parse_numeric : string -> option Q.

Abbreviation parse := (parse_transactions parse_datetime parse_numeric).
Abbreviation coerce := (coerce_row parse_datetime parse_numeric).
Abbreviation cleaned := (cleaned_from parse_datetime parse_numeric).
Abbreviation keeps := (amount_parses parse_numeric).

Lemma coerce_row_raises_only (cols : list string) (row : list cell) (e : exn) :
  coerce cols row = Raise e -> e = DateParseError.
Proof.
  unfold coerce_row, to_datetime.
  destruct (field cols "date" row) as [s|]; simpl; [|discriminate].
  destruct (parse_datetime s); simpl; [discriminate|]. congruence.
Qed.

Lemma coerce_row_unparsable (cols : list string) (row : list cell) :
  date_unparsable parse_datetime cols row -> coerce cols row = Raise DateParseError.
Proof.
  intros (s & Hcell & Hparse). unfold coerce_row, to_datetime.
  rewrite Hcell, Hparse. reflexivity.
Qed.

(** A date cell that is a text [pd.to_datetime] cannot parse makes the
    whole import raise, whatever the other rows hold. *)
Lemma parse_unparsable_date_raises (df : RawTable) (row : list cell) :
  required ⊆ columns df ->
  row ∈ rows df ->
  date_unparsable parse_datetime (columns df) row ->
  parse df = Raise DateParseError.
Proof.
  intros Hcols Hrow Hbad. unfold parse_transactions.
  apply issubset_true in Hcols. rewrite Hcols. simpl.
  rewrite (mapM_Raise _ _ DateParseError row Hrow).
  - reflexivity.
  - apply coerce_row_unparsable, Hbad.
  - intros y e'. apply coerce_row_raises_only.
Qed.

Lemma coerce_row_Ok (cols : list string) (row : list cell) (t : Timestamp) :
  to_datetime parse_datetime (field cols "date" row) = Ok (Some t) ->
  coerce cols row =
    Ok {| c_date := Some t;
          c_category := field cols "category" row;
          c_amount := to_numeric parse_numeric (field cols "amount" row);
          c_description := field cols "description" row |}.
Proof. intros H. unfold coerce_row. rewrite H. reflexivity. Qed.

Lemma coerce_row_missing (cols : list string) (row : list cell) :
  field cols "date" row = None ->
  coerce cols row =
    Ok {| c_date := None;
          c_category := field cols "category" row;
          c_amount := to_numeric parse_numeric (field cols "amount" row);
          c_description := field cols "description" row |}.
Proof. intros H. unfold coerce_row. rewrite H. reflexivity. Qed.

(** With every date parsed, the coercions raise nothing and [dropna]
    keeps, in order, the rows whose amount is a number. *)
Lemma coerce_rows_clean (cols : list string) (rows : list (list cell)) :
  Forall (date_parses parse_datetime cols) rows ->
  exists coerced,
    mapM (coerce cols) rows = Ok coerced /\
    Forall2 (cleaned cols) (List.filter (keeps cols) rows) (dropna coerced).
Proof.
  induction 1 as [|row rows (s & t & Hcell & Hparse) _ (coerced & Hmap & Hall)].
  - exists []. split; [reflexivity | constructor].
  - assert (Hdate : to_datetime parse_datetime (field cols "date" row) = Ok (Some t)).
    { unfold to_datetime. rewrite Hcell, Hparse. reflexivity. }
    eexists. split.
    + simpl. rewrite (coerce_row_Ok _ _ _ Hdate). simpl.
      rewrite Hmap. simpl. reflexivity.
    + simpl. unfold amount_parses at 1. simpl.
      destruct (to_numeric parse_numeric (field cols "amount" row)) as [a|] eqn:Ha.
      * constructor; [|exact Hall].
        unfold cleaned_from. simpl. auto.
      * exact Hall.
Qed.

(** Without a date text that cannot be parsed, the import raises nothing:
    it keeps, in order, exactly the rows with a date and an amount that
    parse.  A row whose date cell is empty is dropped like a row whose
    amount is missing or not a number. *)
Lemma parse_without_unparsable_dates (df : RawTable) :
  required ⊆ columns df ->
  Forall (fun row => ~ date_unparsable parse_datetime (columns df) row) (rows df) ->
  exists out,
    parse df = Ok out /\
    Forall2 (cleaned (columns df))
            (List.filter (survives parse_datetime parse_numeric (columns df)) (rows df)) out.
Proof.
  intros Hcols Hdates. unfold parse_transactions.
  apply issubset_true in Hcols. rewrite Hcols. simpl.
  generalize (columns df) as cols, Hdates. clear Hcols Hdates. intros cols Hdates.
  assert (H : exists coerced,
             mapM (coerce cols) (rows df) = Ok coerced /\
             Forall2 (cleaned cols)
               (List.filter (survives parse_datetime parse_numeric cols) (rows df))
               (dropna coerced)).
  { induction Hdates as [|row rows Hrow _ (coerced & Hmap & Hall)].
    - exists []. split; [reflexivity | constructor].
    - destruct (field cols "date" row) as [s|] eqn:Hcell.
      + destruct (parse_datetime s) as [t|] eqn:Hparse.
        * assert (Hdate : to_datetime parse_datetime (field cols "date" row) = Ok (Some t)).
          { unfold to_datetime. rewrite Hcell, Hparse. reflexivity. }
          eexists. split.
          -- simpl. rewrite (coerce_row_Ok _ _ _ Hdate). simpl.
             rewrite Hmap. simpl. reflexivity.
          -- simpl. unfold survives at 1, amount_parses. rewrite Hcell, Hparse. simpl.
             destruct (to_numeric parse_numeric (field cols "amount" row)) as [a|] eqn:Ha.
             ++ constructor; [|exact Hall]. unfold cleaned_from. simpl. auto.
             ++ exact Hall.
        * destruct Hrow. exists s. auto.
      + eexists. split.
        * simpl. rewrite (coerce_row_missing _ _ Hcell). simpl.
          rewrite Hmap. simpl. reflexivity.
        * simpl. unfold survives at 1. rewrite Hcell. simpl.
          destruct (to_numeric parse_numeric (field cols "amount" row)); exact Hall. }
  destruct H as (coerced & Hmap & Hall). rewrite Hmap. simpl. eauto.
Qed.

(** C2. Parsing a table without the [category] column fails with the
    schema error of line 40.  Parsing a table that has the required
    columns and whose dates all parse returns, in order, exactly the
    rows whose amount parses, each with its date and amount converted
    and its other cells unchanged: the rows with an unparsable amount
    are dropped and every other row is kept. *)
Theorem parse_schema_error_and_amount_rows :
  (forall df, "category" ∉ columns df -> parse df = Raise (ValueError schema_message)) /\
  (forall df,
     required ⊆ columns df ->
     Forall (date_parses parse_datetime (columns df)) (rows df) ->
     exists out,
       parse df = Ok out /\
       Forall2 (cleaned (columns df)) (List.filter (keeps (columns df)) (rows df)) out).
Proof.
  split.
  - intros df Hmissing. unfold parse_transactions.
    rewrite (issubset_false required (columns df) "category"); [reflexivity | | exact Hmissing].
    unfold required. right. left.
  - intros df Hcols Hdates. unfold parse_transactions.
    apply issubset_true in Hcols. rewrite Hcols. simpl.
    destruct (coerce_rows_clean _ _ Hdates) as (coerced & Hmap & Hall).
    rewrite Hmap. simpl. eauto.
Qed.

End ParseProperties.

Lemma required_in_columns (cols : list string) :
  issubset required cols = true -> required ⊆ cols.
Proof. apply issubset_true. Qed.

Lemma parse_schema_error_and_amount_rows_witness :
  parse_transactions iso_datetime plain_decimal no_category_table
    = Raise (ValueError schema_message) /\
  exists out,
    parse_transactions iso_datetime plain_decimal bad_amount_table = Ok out /\
    Forall2 (cleaned_from iso_datetime plain_decimal (columns bad_amount_table))
            (List.filter (amount_parses plain_decimal (columns bad_amount_table))
                         (rows bad_amount_table))
            out.
Proof.
  destruct (parse_schema_error_and_amount_rows iso_datetime plain_decimal) as [Hschema Hrows].
  split.
  - apply Hschema. simpl. intros Hin.
    repeat (apply elem_of_cons in Hin as [Hin|Hin]; [discriminate|]).
    inversion Hin.
  - apply Hrows.
    + apply required_in_columns. reflexivity.
    + simpl. repeat constructor; eexists _, _; split; reflexivity.
Defined.

(** The rows kept from [bad_amount_table] are the first and the last. *)
Example parse_bad_amount_table :
  parse_transactions iso_datetime plain_decimal bad_amount_table =
    Ok [ tx (ymd 2025 8 1) "Food" 250 "Lunch";
         {| date := ymd 2025 8 5; category := Some "Savings"; amount := -5000;
            description := None |} ].
Proof. vm_compute. reflexivity. Qed.

(** C3. The specification has a row whose date cannot be parsed dropped
    silently.  The code raises instead: on [bad_date_table], whose second
    row has the date "not a date", [parse_transactions] returns no frame
    but the error of [pd.to_datetime]. *)
Theorem parse_bad_date_table_raises :
  parse_transactions iso_datetime plain_decimal bad_date_table = Raise DateParseError.
Proof.
  apply (parse_unparsable_date_raises _ _ _ [Some "not a date"; Some "Transport"; Some "120"]).
  - apply required_in_columns. reflexivity.
  - simpl. right. left.
  - exists "not a date". split; reflexivity.
Qed.

(** ** Intent routing *)

Lemma lower_ascii_idem (c : ascii) : lower_ascii (lower_ascii c) = lower_ascii c.
Proof. destruct c as [[] [] [] [] [] [] [] []]; reflexivity. Qed.

Lemma lower_idem (s : string) : lower (lower s) = lower s.
Proof.
  induction s as [|c s IH]; simpl; [reflexivity|].
  rewrite lower_ascii_idem, IH. reflexivity.
Qed.


(** ** Budget Summary *)

Lemma span_days_nonneg (window : DataFrame) :
  window <> [] -> exists d, span_days window = Some d /\ 0 <= d.
Proof.
  intros Hne. unfold span_days.
  destruct (date_max_is_Some _ Hne) as [hi Hhi].
  destruct (date_min_is_Some _ Hne) as [lo Hlo].
  rewrite Hhi, Hlo. eexists. split; [reflexivity|].
  destruct (date_max_spec _ _ Hhi) as [(t & Hin & Ht) _].
  pose proof (date_min_spec _ _ Hlo t Hin) as Hle.
  unfold delta_days. apply Z.div_pos; [lia | apply day_ns_pos].
Qed.

Lemma at_least_one_pos (d : option Z) : 1 <= at_least_one d.
Proof. destruct d; simpl; lia. Qed.

Lemma truediv_at_least_one (x : Q) (d : option Z) :
  truediv x (at_least_one d) = Ok (x / inject_Z (at_least_one d))%Q.
Proof.
  unfold truediv. pose proof (at_least_one_pos d).
  destruct (Z.eqb_spec (at_least_one d) 0); [lia | reflexivity].
Qed.

Lemma budget_figures_Ok (transactions : DataFrame) :
  let recent := recent_window transactions in
  let days := at_least_one (span_days recent) in
  budget_figures transactions =
    Ok {| period_start := date_min recent;
          period_end := date_max recent;
          total_spent := spend_of recent;
          total_saved := (- amount_sum (List.filter (fun t => Qltb (amount t) 0) recent))%Q;
          top_expenses :=
            take 5 (List.filter (fun kv => Qltb 0 (snd kv))
                                (sort_values_desc (groupby_category_sum recent)));
          avg_daily := (spend_of recent / inject_Z days)%Q;
          suggested_monthly := (spend_of recent * 30 / inject_Z days * (9 # 10))%Q |}.
Proof.
  intros recent days. unfold budget_figures.
  rewrite !truediv_at_least_one. reflexivity.
Qed.

(** C5. On the sample data the reporting window is the whole set, and the
    Budget Summary reports a total spend of 4969 and a total saved of
    7000. *)
Theorem sample_budget_totals (R : Rendering) :
  recent_window load_sample_transactions = load_sample_transactions /\
  exists b,
    budget_figures load_sample_transactions = Ok b /\
    summarize_budget R load_sample_transactions = Ok (render_budget R b) /\
    (total_spent b == 4969)%Q /\
    (total_saved b == 7000)%Q.
Proof.
  split; [vm_compute; reflexivity|].
  destruct (budget_figures load_sample_transactions) as [b|e] eqn:Hb.
  - exists b. split; [reflexivity|]. split.
    + unfold summarize_budget. cbn [df_empty load_sample_transactions].
      rewrite Hb. reflexivity.
    + vm_compute in Hb. injection Hb as <-. split; reflexivity.
  - vm_compute in Hb. discriminate.
Qed.

(** The text of the Budget Summary on the sample data. *)
Example sample_budget_text :
  summarize_budget plain_rendering load_sample_transactions =
    Ok (join_lines
          [ "**Period:** 2025-08-01 " +:+ arrow +:+ " 2025-08-20";
            "**Total Spending:** " +:+ rupee +:+ "4,969.00";
            "**Total Savings/Investments:** " +:+ rupee +:+ "7,000.00";
            "**Top Expense Categories:**";
            "- Bills: " +:+ rupee +:+ "2,200.00";
            "- Groceries: " +:+ rupee +:+ "1,500.00";
            "- Entertainment: " +:+ rupee +:+ "600.00";
            "- Subscriptions: " +:+ rupee +:+ "299.00";
            "- Food: " +:+ rupee +:+ "250.00";
            "**Avg Daily Spend:** " +:+ rupee +:+ "261.53";
            "**Suggested Monthly Budget:** " +:+ rupee +:+ "7,061 (~10% reduction)" ]).
Proof. vm_compute. reflexivity. Qed.




(** ** Totality of the report generators *)

Lemma budget_figures_returns (transactions : DataFrame) :
  returns (budget_figures transactions).
Proof.
  pose proof (budget_figures_Ok transactions) as Hb. cbv zeta in Hb.
  rewrite Hb. apply returns_Ok.
Qed.

Lemma enumerate_bounds {A : Type} (start i : nat) (x : A) (l : list A) :
  (i, x) ∈ enumerate start l -> (start <= i < start + length l)%nat.
Proof.
  unfold enumerate. intros Hin. apply elem_of_zip_l in Hin.
  apply elem_of_seq in Hin. exact Hin.
Qed.

Lemma iloc_returns {A : Type} (l : list A) (i : nat) :
  (i < length l)%nat -> returns (iloc l i).
Proof.
  intros Hi. unfold iloc.
  destruct (lookup_lt_is_Some_2 l i Hi) as [a Ha]. rewrite Ha. apply returns_Ok.
Qed.

(** The membership test of lines 76, 78 and 80 guards the lookup that
    follows it: no [KeyError]. *)
Lemma exceeds_returns (by_cat : Series) (k : string) (limit : Q) :
  returns (exceeds by_cat k limit).
Proof.
  unfold exceeds. destruct (series_contains k by_cat) eqn:Hin.
  - apply series_contains_find in Hin as [v Hv].
    rewrite series_getitem_find, Hv. simpl. apply returns_Ok.
  - apply returns_Ok.
Qed.

Section ReportProperties.

Variable R : Rendering.

Lemma summarize_budget_returns (transactions : DataFrame) :
  returns (summarize_budget R transactions).
Proof.
  unfold summarize_budget. destruct (df_empty transactions).
  - apply returns_Ok.
  - apply returns_bind; [apply budget_figures_returns|].
    intros b. apply returns_Ok.
Qed.

(** The positions [i - 1] read from [top_pct] in the loop of lines 74-75
    are positions of [top]: no [IndexError]. *)
Lemma generate_spending_insights_returns
    (transactions : DataFrame) (profile : gmap string pyval) :
  returns (generate_spending_insights R transactions profile).
Proof.
  unfold generate_spending_insights. destruct (df_empty transactions).
  - apply returns_Ok.
  - cbv zeta. apply returns_bind.
    + apply returns_mapM, Forall_forall. intros [i [cat amt]] Hin.
      apply enumerate_bounds in Hin. simpl.
      apply returns_bind; [|intros p; apply returns_Ok].
      apply iloc_returns. rewrite length_map. lia.
    + intros ranked.
      apply returns_bind; [apply exceeds_returns|]. intros subscriptions.
      apply returns_bind; [apply exceeds_returns|]. intros food.
      apply returns_bind; [apply exceeds_returns|]. intros transport.
      apply returns_Ok.
Qed.


(** ** The default of a missing [user_type] *)

Lemma eq_str_professional : eq_str (professional !! "user_type") "Student" = false.
Proof. reflexivity. Qed.

Lemma eq_str_student : eq_str (student !! "user_type") "Student" = true.
Proof. reflexivity. Qed.


End ReportProperties.


(** The text of the Spending Insights on the sample data, for a profile
    without [user_type]. *)
Example sample_insights_text :
  generate_spending_insights plain_rendering load_sample_transactions anonymous =
    Ok (join_lines
          [ "**Top Spending Categories:**";
            "1. Savings " +:+ em_dash +:+ " " +:+ rupee +:+ "5,000 (~41.8%)";
            "2. Bills " +:+ em_dash +:+ " " +:+ rupee +:+ "2,200 (~18.4%)";
            "3. Investment " +:+ em_dash +:+ " " +:+ rupee +:+ "2,000 (~16.7%)";
            tip_other ]).
Proof. vm_compute. reflexivity. Qed.

(** * Further properties of the code *)

(** ** The reporting window, continued *)

Lemma date_max_unique (df : DataFrame) (m : Timestamp) :
  (exists t, t ∈ df /\ date t = m) -> (forall t, t ∈ df -> date t <= m) ->
  date_max df = Some m.
Proof.
  intros (t & Hin & Ht) Hub.
  assert (Hne : df <> []) by (intros ->; inversion Hin).
  destruct (date_max_is_Some _ Hne) as [m' Hm']. rewrite Hm'. f_equal.
  destruct (date_max_spec _ _ Hm') as [(t' & Hin' & Ht') Hub'].
  specialize (Hub _ Hin'). specialize (Hub' _ Hin). lia.
Qed.

Lemma fold_min_in (l : list Z) (a : Z) : fold_left Z.min l a ∈ a :: l.
Proof.
  revert a. induction l as [|x l IH]; intros a; simpl.
  - left.
  - specialize (IH (Z.min a x)). apply elem_of_cons in IH as [IH|IH].
    + rewrite IH. destruct (Z.min_spec a x) as [[_ ->]|[_ ->]].
      * left.
      * right. left.
    + right. right. exact IH.
Qed.

Lemma date_min_elem (df : DataFrame) (m : Timestamp) :
  date_min df = Some m -> exists t, t ∈ df /\ date t = m.
Proof.
  destruct df as [|t0 rest]; simpl; [discriminate|]. intros [= <-].
  pose proof (fold_min_in (map date rest) (date t0)) as Hin.
  apply elem_of_cons in Hin as [Hin|Hin].
  - exists t0. split; [left | symmetry; exact Hin].
  - apply list_elem_of_fmap in Hin as (t & Ht & Hin).
    exists t. split; [right; exact Hin | symmetry; exact Ht].
Qed.

Lemma filter_filter_same {A : Type} (p : A -> bool) (l : list A) :
  List.filter p (List.filter p l) = List.filter p l.
Proof.
  induction l as [|x l IH]; simpl; [reflexivity|].
  destruct (p x) eqn:Hp; simpl; [rewrite Hp, IH|]; auto.
Qed.

Lemma elem_of_filter_bool {A : Type} (p : A -> bool) (l : list A) (x : A) :
  x ∈ List.filter p l <-> x ∈ l /\ p x = true.
Proof. rewrite !list_elem_of_In. apply filter_In. Qed.

Lemma recent_window_filter (transactions : DataFrame) (latest : Timestamp) :
  date_max transactions = Some latest ->
  recent_window transactions
  = List.filter (fun t => latest - Timedelta 30 <=? date t) transactions.
Proof.
  intros Hmax.
  assert (Hne : transactions <> []) by (intros ->; discriminate).
  pose proof (last_30_days_nonempty _ Hne) as Hrecent.
  unfold recent_window. destruct (last_30_days transactions) eqn:Hl; [congruence|].
  simpl. rewrite <- Hl. unfold last_30_days. rewrite Hmax. reflexivity.
Qed.

Lemma recent_window_date_max (transactions : DataFrame) :
  date_max (recent_window transactions) = date_max transactions.
Proof.
  destruct (date_max transactions) as [latest|] eqn:Hmax.
  - rewrite (recent_window_filter _ _ Hmax).
    destruct (date_max_spec _ _ Hmax) as [(t & Hin & Ht) Hub].
    apply date_max_unique.
    + exists t. split; [|exact Ht]. apply elem_of_filter_bool. split; [exact Hin|].
      apply Z.leb_le. unfold Timedelta. pose proof day_ns_pos. lia.
    + intros t' Hin'. apply elem_of_filter_bool in Hin' as [Hin' _]. apply Hub, Hin'.
  - destruct transactions; [reflexivity | discriminate].
Qed.



Lemma recent_window_idem (transactions : DataFrame) :
  recent_window (recent_window transactions) = recent_window transactions.
Proof.
  destruct (date_max transactions) as [latest|] eqn:Hmax.
  - assert (Hmax' : date_max (recent_window transactions) = Some latest).
    { rewrite recent_window_date_max. exact Hmax. }
    rewrite (recent_window_filter _ _ Hmax').
    rewrite (recent_window_filter _ _ Hmax). apply filter_filter_same.
  - destruct transactions; [reflexivity | discriminate].
Qed.

Lemma df_empty_recent_window (transactions : DataFrame) :
  df_empty (recent_window transactions) = df_empty transactions.
Proof.
  destruct transactions as [|t0 rest]; [reflexivity|].
  pose proof (recent_window_nonempty (t0 :: rest) ltac:(discriminate)) as Hne.
  destruct (recent_window (t0 :: rest)); [congruence | reflexivity].
Qed.

(** The Budget Summary reads its input through the window only. *)
Lemma summarize_budget_window (R : Rendering) (tx1 tx2 : DataFrame) :
  recent_window tx1 = recent_window tx2 ->
  summarize_budget R tx1 = summarize_budget R tx2.
Proof.
  intros Hwin. unfold summarize_budget, budget_figures.
  rewrite <- (df_empty_recent_window tx1), <- (df_empty_recent_window tx2), Hwin.
  reflexivity.
Qed.

(** X2. Taking the window is idempotent, and the Budget Summary of a
    transaction set is the Budget Summary of its window: rows older than
    30 days before the latest date have no effect on the report. *)
Theorem budget_summary_of_window (R : Rendering) (transactions : DataFrame) :
  recent_window (recent_window transactions) = recent_window transactions /\
  summarize_budget R (recent_window transactions) = summarize_budget R transactions.
Proof.
  split; [apply recent_window_idem|].
  apply summarize_budget_window, recent_window_idem.
Qed.

Lemma span_days_window_bounds (transactions : DataFrame) :
  transactions <> [] ->
  exists d, span_days (recent_window transactions) = Some d /\ 0 <= d <= 30.
Proof.
  intros Hne.
  destruct (date_max_is_Some _ Hne) as [latest Hmax].
  pose proof (recent_window_nonempty _ Hne) as Hwin.
  destruct (span_days_nonneg _ Hwin) as (d & Hd & Hpos).
  exists d. split; [exact Hd|]. split; [exact Hpos|].
  unfold span_days in Hd. rewrite recent_window_date_max, Hmax in Hd.
  destruct (date_min (recent_window transactions)) as [lo|] eqn:Hlo; [|discriminate].
  injection Hd as <-.
  destruct (date_min_elem _ _ Hlo) as (t & Hin & Ht).
  rewrite (recent_window_filter _ _ Hmax) in Hin.
  apply elem_of_filter_bool in Hin as [_ Hge]. apply Z.leb_le in Hge.
  unfold delta_days. pose proof day_ns_pos.
  apply Z.div_le_upper_bound; [lia|]. unfold Timedelta in Hge. lia.
Qed.

(** ** Spend, savings and the two derived figures *)

Lemma Qltb_lt (x y : Q) : Qltb x y = true <-> (x < y)%Q.
Proof.
  unfold Qltb. rewrite negb_true_iff. split.
  - intros H. apply Qnot_le_lt. intros Hle. apply Qle_bool_iff in Hle. congruence.
  - intros H. destruct (Qle_bool y x) eqn:Hle; [|reflexivity].
    apply Qle_bool_iff in Hle. exfalso. apply (Qlt_not_le _ _ H Hle).
Qed.

Lemma Qltb_ge (x y : Q) : Qltb x y = false <-> (y <= x)%Q.
Proof.
  unfold Qltb. rewrite negb_false_iff. apply Qle_bool_iff.
Qed.

Lemma Qsum_nonneg (l : list Q) : Forall (fun x => 0 <= x)%Q l -> (0 <= Qsum l)%Q.
Proof.
  induction 1 as [|x l Hx _ IH]; simpl.
  - apply Qle_refl.
  - replace 0%Q with (0 + 0)%Q by reflexivity. apply Qplus_le_compat; assumption.
Qed.

Lemma Qsum_nonpos (l : list Q) : Forall (fun x => x <= 0)%Q l -> (Qsum l <= 0)%Q.
Proof.
  induction 1 as [|x l Hx _ IH]; simpl.
  - apply Qle_refl.
  - replace 0%Q with (0 + 0)%Q by reflexivity. apply Qplus_le_compat; assumption.
Qed.

Lemma spend_of_nonneg (window : DataFrame) : (0 <= spend_of window)%Q.
Proof.
  unfold spend_of, amount_sum. apply Qsum_nonneg, Forall_forall.
  intros x Hx. apply list_elem_of_fmap in Hx as (t & -> & Hin).
  apply elem_of_filter_bool in Hin as [_ Hpos].
  apply Qlt_le_weak, Qltb_lt, Hpos.
Qed.

Lemma saved_nonneg (window : DataFrame) :
  (0 <= - amount_sum (List.filter (fun t => Qltb (amount t) 0) window))%Q.
Proof.
  assert (H : (amount_sum (List.filter (fun t => Qltb (amount t) 0) window) <= 0)%Q).
  { unfold amount_sum. apply Qsum_nonpos, Forall_forall.
    intros x Hx. apply list_elem_of_fmap in Hx as (t & -> & Hin).
    apply elem_of_filter_bool in Hin as [_ Hneg].
    apply Qlt_le_weak, Qltb_lt, Hneg. }
  apply (Qopp_le_compat _ 0) in H. exact H.
Qed.

Lemma spent_minus_saved (window : DataFrame) :
  (spend_of window + amount_sum (List.filter (fun t => Qltb (amount t) 0) window)
   == amount_sum window)%Q.
Proof.
  unfold spend_of, amount_sum. induction window as [|t window IH]; simpl.
  - reflexivity.
  - destruct (Qltb 0 (amount t)) eqn:Hpos; destruct (Qltb (amount t) 0) eqn:Hneg; simpl.
    + apply Qltb_lt in Hpos, Hneg. exfalso.
      apply (Qlt_irrefl 0), (Qlt_trans _ (amount t)); assumption.
    + rewrite <- IH. ring.
    + rewrite <- IH. ring.
    + apply Qltb_ge in Hpos, Hneg.
      assert (Hz : (amount t == 0)%Q) by (apply Qle_antisym; assumption).
      rewrite <- IH, Hz. ring.
Qed.


Lemma inject_Z_le (a b : Z) : a <= b -> (inject_Z a <= inject_Z b)%Q.
Proof. intros H. rewrite <- Zle_Qle. exact H. Qed.

Lemma inject_Z_pos (k : Z) : 0 < k -> (0 < inject_Z k)%Q.
Proof. intros H. change (inject_Z 0 < inject_Z k)%Q. rewrite <- Zlt_Qlt. exact H. Qed.

Lemma inject_Z_nonzero (k : Z) : 0 < k -> ~ (inject_Z k == 0)%Q.
Proof.
  intros H Heq. apply inject_Z_pos in H. rewrite Heq in H. apply (Qlt_irrefl 0 H).
Qed.

Lemma Qdiv_bounds (x : Q) (k : Z) :
  (0 <= x)%Q -> 1 <= k <= 30 ->
  (0 <= x / inject_Z k)%Q /\ (x / inject_Z k <= x)%Q /\ (x <= x / inject_Z k * 30)%Q.
Proof.
  intros Hx [Hk1 Hk30].
  assert (Hkpos : (0 < inject_Z k)%Q) by (apply inject_Z_pos; lia).
  assert (Hk0 : ~ (inject_Z k == 0)%Q) by (apply inject_Z_nonzero; lia).
  set (y := (x / inject_Z k)%Q).
  assert (Hxy : (x == y * inject_Z k)%Q) by (unfold y; field; exact Hk0).
  assert (Hy : (0 <= y)%Q).
  { unfold y. apply Qle_shift_div_l; [exact Hkpos|]. rewrite Qmult_0_l. exact Hx. }
  clearbody y. split; [exact Hy|]. split.
  - rewrite Hxy.
    assert (H1 : (y == 1 * y)%Q) by ring. rewrite H1 at 1.
    rewrite (Qmult_comm y). apply Qmult_le_compat_r; [|exact Hy].
    apply (inject_Z_le 1 k), Hk1.
  - rewrite Hxy. rewrite !(Qmult_comm y).
    apply Qmult_le_compat_r; [|exact Hy].
    apply (inject_Z_le k 30), Hk30.
Qed.



(** ** The top expense categories *)

Lemma StronglySorted_sublist {A : Type} (Rel : A -> A -> Prop) (l1 l2 : list A) :
  l1 `sublist_of` l2 -> StronglySorted Rel l2 -> StronglySorted Rel l1.
Proof.
  induction 1 as [|x l1 l2 Hsub IH|x l1 l2 Hsub IH]; intros Hsorted.
  - constructor.
  - apply StronglySorted_inv in Hsorted as [Hs Hall]. constructor; [apply IH, Hs|].
    apply Forall_forall. intros y Hy. rewrite Forall_forall in Hall.
    apply Hall. eapply elem_of_sublist; eassumption.
  - apply StronglySorted_inv in Hsorted as [Hs _]. apply IH, Hs.
Qed.

Lemma filter_sublist {A : Type} (p : A -> bool) (l : list A) :
  List.filter p l `sublist_of` l.
Proof.
  induction l as [|x l IH]; simpl.
  - constructor.
  - destruct (p x); [apply sublist_skip | apply sublist_cons]; exact IH.
Qed.

Lemma label_lt_irrefl (a : string * Q) : ~ label_lt a a.
Proof. unfold label_lt. rewrite string_compare_refl. discriminate. Qed.

Lemma ascending_NoDup (s : Series) : ascending s -> NoDup (map fst s).
Proof.
  unfold ascending. induction 1 as [|[k v] s Hs IH Hall]; simpl.
  - constructor.
  - constructor; [|exact IH]. intros Hin.
    apply list_elem_of_fmap in Hin as ([k' v'] & Hk & Hin). simpl in Hk. subst k'.
    rewrite Forall_forall in Hall. specialize (Hall _ Hin).
    unfold label_lt in Hall. simpl in Hall.
    rewrite string_compare_refl in Hall. discriminate.
Qed.

Lemma groupby_NoDup (df : DataFrame) : NoDup (map fst (groupby_category_sum df)).
Proof. apply ascending_NoDup, groupby_ascending. Qed.


(** ** Spending Insights: shares and advisory lines *)

(** [transactions['amount'].abs().sum()], line 71. *)
Lemma Qsum_abs_nonneg (l : list Q) : (0 <= Qsum (map Qabs l))%Q.
Proof.
  apply Qsum_nonneg, Forall_forall. intros x Hx.
  apply list_elem_of_fmap in Hx as (y & -> & _). apply Qabs_nonneg.
Qed.

Lemma series_add_abs_sum (k : string) (v : Q) (s : Series) :
  (Qsum (map Qabs (series_values (series_add k v s)))
   <= Qabs v + Qsum (map Qabs (series_values s)))%Q.
Proof.
  unfold series_values. induction s as [|[k' v'] s IH]; simpl.
  - apply Qle_refl.
  - destruct (String.compare k k'); simpl.
    + eapply Qle_trans.
      * apply Qplus_le_compat; [apply Qabs_triangle | apply Qle_refl].
      * apply Qle_lteq. right. ring.
    + apply Qle_refl.
    + eapply Qle_trans.
      * apply Qplus_le_compat; [apply Qle_refl | exact IH].
      * apply Qle_lteq. right. ring.
Qed.

Lemma fold_group_step_abs_sum (df : DataFrame) (acc : Series) :
  (Qsum (map Qabs (series_values (fold_left group_step df acc)))
   <= Qsum (map Qabs (series_values acc)) + Qsum (map (fun t => Qabs (amount t)) df))%Q.
Proof.
  revert acc. induction df as [|t df IH]; intros acc; simpl.
  - apply Qle_lteq. right. ring.
  - eapply Qle_trans; [apply IH|]. unfold group_step.
    destruct (category t) as [k|].
    + eapply Qle_trans.
      * apply Qplus_le_compat; [apply series_add_abs_sum | apply Qle_refl].
      * apply Qle_lteq. right. ring.
    + apply Qplus_le_compat; [apply Qle_refl|].
      set (rest := Qsum (map (fun t0 => Qabs (amount t0)) df)).
      assert (H0 : (rest == 0 + rest)%Q) by ring. rewrite H0 at 1.
      apply Qplus_le_compat; [apply Qabs_nonneg | apply Qle_refl].
Qed.

Lemma series_abs_values (s : Series) :
  series_values (series_abs s) = map Qabs (series_values s).
Proof.
  unfold series_values, series_abs. rewrite !map_map. reflexivity.
Qed.

Lemma Qsum_elem_le (l : list Q) (x : Q) :
  Forall (fun y => 0 <= y)%Q l -> x ∈ l -> (x <= Qsum l)%Q.
Proof.
  induction 1 as [|y l Hy Hall IH]; intros Hin; [inversion Hin|].
  simpl. apply elem_of_cons in Hin as [->|Hin].
  - rewrite <- (Qplus_0_r y) at 1.
    apply Qplus_le_compat; [apply Qle_refl | apply Qsum_nonneg, Hall].
  - rewrite <- (Qplus_0_l x). apply Qplus_le_compat; [exact Hy | apply IH, Hin].
Qed.

Lemma rank_categories_values (transactions : DataFrame) :
  series_values (rank_categories transactions)
  ≡ₚ map Qabs (series_values (groupby_category_sum transactions)).
Proof.
  unfold rank_categories. rewrite <- series_abs_values. unfold series_values.
  apply Permutation_map, sort_values_desc_perm.
Qed.


Lemma series_find_Some_elem (k : string) (v : Q) (s : Series) :
  series_find k s = Some v -> (k, v) ∈ s.
Proof.
  unfold series_find. induction s as [|[k' v'] s IH]; simpl; [discriminate|].
  destruct (String.eqb k' k) eqn:Hk; simpl.
  - apply String.eqb_eq in Hk. intros [= <-]. subst k'. left.
  - intros H. right. apply IH, H.
Qed.

Lemma series_find_None (k : string) (s : Series) :
  series_find k s = None <-> k ∉ map fst s.
Proof.
  unfold series_find. induction s as [|[k' v'] s IH]; simpl.
  - split; [intros _ H; inversion H | reflexivity].
  - destruct (String.eqb k' k) eqn:Hk; simpl.
    + apply String.eqb_eq in Hk. subst k'. split; [discriminate|].
      intros H. destruct H. left.
    + apply String.eqb_neq in Hk. rewrite IH, not_elem_of_cons.
      split; [intros H; split; [congruence | exact H] | intros [_ H]; exact H].
Qed.

Lemma series_find_NoDup (k : string) (v : Q) (s : Series) :
  NoDup (map fst s) -> (k, v) ∈ s -> series_find k s = Some v.
Proof.
  unfold series_find. induction s as [|[k' v'] s IH]; simpl; intros Hnd Hin.
  - inversion Hin.
  - apply NoDup_cons in Hnd as [Hnotin Hnd].
    apply elem_of_cons in Hin as [Heq|Hin].
    + injection Heq as <- <-. rewrite String.eqb_refl. reflexivity.
    + destruct (String.eqb k' k) eqn:Hk.
      * apply String.eqb_eq in Hk. subst k'. destruct Hnotin.
        apply list_elem_of_fmap. exists (k, v). auto.
      * apply IH; assumption.
Qed.

(** The ranking stores, under each category, the absolute value of what
    the grouping stores. *)
Lemma series_find_rank (k : string) (transactions : DataFrame) :
  series_find k (rank_categories transactions)
  = Qabs <$> series_find k (groupby_category_sum transactions).
Proof.
  assert (Hperm : rank_categories transactions
                  ≡ₚ series_abs (groupby_category_sum transactions))
    by apply sort_values_desc_perm.
  assert (Hkeys : map fst (series_abs (groupby_category_sum transactions))
                  = map fst (groupby_category_sum transactions)).
  { unfold series_abs. rewrite map_map. reflexivity. }
  assert (Hnd : NoDup (map fst (rank_categories transactions))).
  { rewrite Hperm, Hkeys. apply groupby_NoDup. }
  destruct (series_find k (groupby_category_sum transactions)) as [v0|] eqn:Hfind; simpl.
  - apply series_find_NoDup; [exact Hnd|]. rewrite Hperm.
    apply series_find_Some_elem in Hfind. unfold series_abs.
    apply list_elem_of_fmap. exists (k, v0). auto.
  - apply series_find_None. rewrite Hperm, Hkeys. apply series_find_None, Hfind.
Qed.

Lemma Qltb_proper (x y y' : Q) : (y == y')%Q -> Qltb x y = Qltb x y'.
Proof. intros H. unfold Qltb. rewrite H. reflexivity. Qed.


(** ** Intent routing, by occurrence of the keywords *)

Lemma append_cons (c : ascii) (s1 s2 : string) :
  String c s1 +:+ s2 = String c (s1 +:+ s2).
Proof. reflexivity. Qed.

Lemma append_nil (s : string) : EmptyString +:+ s = s.
Proof. reflexivity. Qed.

Lemma prefix_append (n h : string) :
  String.prefix n h = true <-> exists after, h = n +:+ after.
Proof.
  revert h. induction n as [|a n IH]; intros h.
  - split; [intros _; exists h; reflexivity | intros _; destruct h; reflexivity].
  - destruct h as [|b h]; simpl.
    + split; [discriminate | intros [after [=]]].
    + destruct (ascii_dec a b) as [->|Hne].
      * rewrite IH. split; intros [after H]; exists after.
        -- rewrite append_cons. f_equal. exact H.
        -- rewrite append_cons in H. injection H as H. exact H.
      * split; [discriminate|]. intros [after H]. rewrite append_cons in H.
        injection H as Hab _. congruence.
Qed.

Lemma contains_unfold (needle h : string) :
  contains needle h =
    if String.prefix needle h then true
    else match h with
         | EmptyString => false
         | String _ rest => contains needle rest
         end.
Proof. destruct h; reflexivity. Qed.

Lemma contains_occurs (needle h : string) :
  contains needle h = true <-> occurs_in needle h.
Proof.
  unfold occurs_in. split.
  - induction h as [|c h IH]; rewrite contains_unfold;
      destruct (String.prefix needle _) eqn:Hp.
    + intros _. apply prefix_append in Hp as [after H].
      exists EmptyString, after. exact H.
    + discriminate.
    + intros _. apply prefix_append in Hp as [after H].
      exists EmptyString, after. exact H.
    + intros H. destruct (IH H) as (before & after & ->).
      exists (String c before), after. reflexivity.
  - intros (before & after & ->). induction before as [|c before IH].
    + rewrite append_nil, contains_unfold.
      assert (Hp : String.prefix needle (needle +:+ after) = true)
        by (apply prefix_append; eauto).
      rewrite Hp. reflexivity.
    + rewrite append_cons, contains_unfold, IH.
      destruct (String.prefix needle _); reflexivity.
Qed.

Lemma contains_false (needle h : string) :
  contains needle h = false <-> ~ occurs_in needle h.
Proof.
  rewrite <- contains_occurs. destruct (contains needle h); split; congruence.
Qed.


(** ** CSV ingest: the three outcomes *)

Section ParseOutcomes.

Variable parse_datetime : string -> option Timestamp.
Variable parse_numeric : string -> option Q.

Abbreviation parse' := (parse_transactions parse_datetime parse_numeric).
Abbreviation unparsable := (date_unparsable parse_datetime).

Lemma date_unparsable_dec (cols : list string) (row : list cell) :
  unparsable cols row \/ ~ unparsable cols row.
Proof.
  unfold date_unparsable. destruct (field cols "date" row) as [s|] eqn:Hcell.
  - destruct (parse_datetime s) as [t|] eqn:Hparse.
    + right. intros (s' & [= <-] & Hnone). congruence.
    + left. eauto.
  - right. intros (s' & [=] & _).
Qed.

Lemma unparsable_rows_dec (cols : list string) (rows : list (list cell)) :
  Exists (unparsable cols) rows \/ Forall (fun row => ~ unparsable cols row) rows.
Proof.
  induction rows as [|row rows [IH|IH]].
  - right. constructor.
  - left. right. exact IH.
  - destruct (date_unparsable_dec cols row) as [Hbad|Hok].
    + left. left. exact Hbad.
    + right. constructor; assumption.
Qed.

(** X9. [parse_transactions] has three outcomes and the table decides
    which.  It raises the schema error iff a required column is missing
    (the check comes first, whatever the rows hold); it raises the error
    of [pd.to_datetime] iff the required columns are there and some row
    has a date text that cannot be parsed; it returns a frame iff the
    required columns are there and no row has such a date. *)
Theorem parse_outcomes (df : RawTable) :
  (parse' df = Raise (ValueError schema_message) <-> ~ required ⊆ columns df) /\
  (parse' df = Raise DateParseError <->
     required ⊆ columns df /\ Exists (unparsable (columns df)) (rows df)) /\
  ((exists out, parse' df = Ok out) <->
     required ⊆ columns df /\ Forall (fun row => ~ unparsable (columns df) row) (rows df)).
Proof.
  destruct (issubset required (columns df)) eqn:Hsub.
  - assert (Hcols : required ⊆ columns df) by (apply issubset_true, Hsub).
    destruct (unparsable_rows_dec (columns df) (rows df)) as [Hbad|Hgood].
    + assert (Hraise : parse' df = Raise DateParseError).
      { apply Exists_exists in Hbad as (row & Hin & Hrow).
        eapply parse_unparsable_date_raises; eassumption. }
      rewrite Hraise. split; [|split].
      * split; [discriminate | intros H; contradiction].
      * split; auto.
      * split; [intros [out [=]]|]. intros [_ Hall]. exfalso.
        apply Exists_exists in Hbad as (row & Hin & Hrow).
        rewrite Forall_forall in Hall. exact (Hall _ Hin Hrow).
    + destruct (parse_without_unparsable_dates parse_datetime parse_numeric df Hcols Hgood)
        as (out & Hout & _).
      rewrite Hout. split; [|split].
      * split; [discriminate | intros H; contradiction].
      * split; [discriminate|]. intros [_ Hbad]. exfalso.
        apply Exists_exists in Hbad as (row & Hin & Hrow).
        rewrite Forall_forall in Hgood. exact (Hgood _ Hin Hrow).
      * split; eauto.
  - assert (Hcols : ~ required ⊆ columns df).
    { intros H. apply issubset_true in H. congruence. }
    assert (Hraise : parse' df = Raise (ValueError schema_message)).
    { unfold parse_transactions. rewrite Hsub. reflexivity. }
    rewrite Hraise. split; [|split].
    + split; auto.
    + split; [discriminate | intros [H _]; contradiction].
    + split; [intros [out [=]] | intros [H _]; contradiction].
Qed.

End ParseOutcomes.

(** ** The grouping *)

